(** * MySQL view builders (drizzle-orm, [mysql-core/view.ts])

    A shallow embedding of the view builders of the MySQL dialect:
    [ViewBuilderCore] with its four option setters, the query-derived
    [ViewBuilder], the manually-typed [ManualViewBuilder], the
    [MySqlView] descriptor and the [mysqlView] entry points.

    The builder's [config] is a JavaScript object that the builder
    mutates in place and hands, by reference, to the descriptors it
    creates.  Objects of that kind live in a store and are named by a
    location; everything the module never writes to after construction
    is a plain value. *)

From stdpp Require Import base gmap strings list.

Open Scope string_scope.
Open Scope list_scope.

(** ** The dialect options ([ViewBuilderConfig]) *)

(** [algorithm?: 'undefined' | 'merge' | 'temptable'] *)
Inductive Algorithm := AlgUndefined | AlgMerge | AlgTemptable.

(** [sqlSecurity?: 'definer' | 'invoker'] *)
Inductive SqlSecurity := SecDefiner | SecInvoker.

(** [withCheckOption?: 'cascaded' | 'local'] *)
Inductive CheckOption := Cascaded | Local.

(** Every field is optional; [None] is an absent property. *)
Record ViewBuilderConfig := mkViewBuilderConfig {
  algorithm : option Algorithm;
  definer : option string;
  sqlSecurity : option SqlSecurity;
  withCheckOption : option CheckOption
}.

(** The object literal [{}]. *)
Definition emptyConfig : ViewBuilderConfig := mkViewBuilderConfig None None None None.

(** Property assignments [config.f = v]. *)
Definition set_algorithm (a : Algorithm) (c : ViewBuilderConfig) :=
  mkViewBuilderConfig (Some a) (definer c) (sqlSecurity c) (withCheckOption c).
Definition set_definer (d : string) (c : ViewBuilderConfig) :=
  mkViewBuilderConfig (algorithm c) (Some d) (sqlSecurity c) (withCheckOption c).
Definition set_sqlSecurity (s : SqlSecurity) (c : ViewBuilderConfig) :=
  mkViewBuilderConfig (algorithm c) (definer c) (Some s) (withCheckOption c).
Definition set_withCheckOption (w : CheckOption) (c : ViewBuilderConfig) :=
  mkViewBuilderConfig (algorithm c) (definer c) (sqlSecurity c) (Some w).

#[global] Instance Algorithm_eq_dec : EqDecision Algorithm.
Proof. solve_decision. Defined.
#[global] Instance SqlSecurity_eq_dec : EqDecision SqlSecurity.
Proof. solve_decision. Defined.
#[global] Instance CheckOption_eq_dec : EqDecision CheckOption.
Proof. solve_decision. Defined.
#[global] Instance ViewBuilderConfig_eq_dec : EqDecision ViewBuilderConfig.
Proof. solve_decision. Defined.

(** ** The store and the evaluation monad *)

(** A location names a [ViewBuilderConfig] object. *)
Definition loc := positive.

(** [new QueryBuilder()] makes a fresh object each time; the objects are
    told apart by a serial number. *)
Record QueryBuilder := mkQueryBuilder { qb_serial : nat }.

(** The store: the config objects, how many [QueryBuilder] objects were
    constructed so far, and the log of the calls made to a query factory
    (the argument of each call, oldest first). *)
Record Store := mkStore {
  configs : gmap loc ViewBuilderConfig;
  queryBuilders : nat;
  factoryCalls : list QueryBuilder
}.

Definition emptyStore : Store := mkStore ∅ 0 [].

Inductive JsError :=
| TypeError (msg : string)
| Error (msg : string).

Inductive Outcome (A : Type) :=
| Returns (a : A)
| Throws (e : JsError).
Arguments Returns {A} a.
Arguments Throws {A} e.

(** A computation reads and writes the store and either returns or
    throws; a throw keeps the writes made before it. *)
Definition Js (A : Type) : Type := Store -> Outcome A * Store.

Definition ret {A} (a : A) : Js A := fun st => (Returns a, st).

Definition throw {A} (e : JsError) : Js A := fun st => (Throws e, st).

Definition bind {A B} (m : Js A) (k : A -> Js B) : Js B :=
  fun st =>
    match m st with
    | (Returns a, st') => k a st'
    | (Throws e, st') => (Throws e, st')
    end.

Notation "'let!' x ':=' m 'in' k" := (bind m (fun x => k))
  (at level 10, x name, m at level 100, k at level 200).

(** [{}] evaluated: a new config object at a location not yet in use. *)
Definition newConfig : Js loc :=
  fun st =>
    let l := fresh (dom (configs st)) in
    (Returns l,
     mkStore (<[l := emptyConfig]> (configs st)) (queryBuilders st) (factoryCalls st)).

(** [this.config.f = v]: a write through the reference.  A reference to
    no object cannot arise from the constructors below; as in JavaScript
    the write would then throw. *)
Definition updateConfig (l : loc) (f : ViewBuilderConfig -> ViewBuilderConfig) : Js unit :=
  fun st =>
    match configs st !! l with
    | Some c =>
        (Returns tt, mkStore (<[l := f c]> (configs st)) (queryBuilders st) (factoryCalls st))
    | None => throw (TypeError "Cannot set properties of undefined") st
    end.

(** [new QueryBuilder()]. *)
Definition newQueryBuilder : Js QueryBuilder :=
  fun st =>
    (Returns (mkQueryBuilder (queryBuilders st)),
     mkStore (configs st) (S (queryBuilders st)) (factoryCalls st)).

(** ** [ViewBuilderCore] *)

Record ViewBuilderCore := mkCore {
  name : string;
  schema : option string;
  config : loc
}.

(** [constructor(name, schema)] with the field initialiser [config = {}]. *)
Definition new_ViewBuilderCore (n : string) (s : option string) : Js ViewBuilderCore :=
  let! l := newConfig in
  ret (mkCore n s l).

Module ViewBuilderCore.

Definition algorithm (this : ViewBuilderCore) (a : Algorithm) : Js ViewBuilderCore :=
  let! _ := updateConfig (config this) (set_algorithm a) in
  ret this.

Definition definer (this : ViewBuilderCore) (d : string) : Js ViewBuilderCore :=
  let! _ := updateConfig (config this) (set_definer d) in
  ret this.

Definition sqlSecurity (this : ViewBuilderCore) (s : SqlSecurity) : Js ViewBuilderCore :=
  let! _ := updateConfig (config this) (set_sqlSecurity s) in
  ret this.

(** [withCheckOption ?? 'cascaded']: the argument may be left out. *)
Definition withCheckOption (this : ViewBuilderCore) (w : option CheckOption)
  : Js ViewBuilderCore :=
  let! _ := updateConfig (config this) (set_withCheckOption (default Cascaded w)) in
  ret this.

End ViewBuilderCore.

(** ** Collaborators from outside this file

    [view.ts] imports the SQL object, the column builders, the table
    constructor, the base [View] class and the selection proxy handler.
    Only what [view.ts] calls on them is modelled. *)

(** Modelled from the spec: the [SQL] object of [~/sql] and its
    [inlineParams()], which are not in [view.ts].  Inlining substitutes
    bound parameter placeholders with their literal values in the query's
    textual form. *)
Inductive Chunk :=
| Text (s : string)
| Placeholder (value : string)
| Literal (value : string).

Definition SQL := list Chunk.

Definition inlineChunk (c : Chunk) : Chunk :=
  match c with
  | Placeholder v => Literal v
  | _ => c
  end.

Definition inlineParams (q : SQL) : SQL := map inlineChunk q.

(** Modelled from the spec: a column descriptor of the column-definition
    layer, realised from a column builder against a named table. *)
Record Column := mkColumn {
  columnTable : string;
  columnOriginalTable : string;
  columnName : string;
  columnType : string
}.

Record ColumnBuilder := mkColumnBuilder {
  builderName : string;
  builderType : string
}.

(** A selected field: a column, a raw expression, or an expression that
    was given an alias with [.as('alias')]. *)
Inductive Field :=
| FColumn (c : Column)
| FSql (s : SQL)
| FAliased (s : SQL) (fieldAlias : string).

(** A JavaScript object used as a record of fields, as the list of its
    own properties in enumeration order. *)
Definition Fields := list (string * Field).

Fixpoint getProperty (o : Fields) (prop : string) : option Field :=
  match o with
  | [] => None
  | (k, v) :: rest => if decide (k = prop) then Some v else getProperty rest prop
  end.

(** [Object.keys(o)]. *)
Definition keys {A} (o : list (string * A)) : list string := map fst o.

Definition build (table : string) (b : ColumnBuilder) : Column :=
  mkColumn table table (builderName b) (builderType b).

(** Modelled from the spec: [mysqlTable(name, columns)] of [./table]
    followed by [getTableColumns] of [~/utils].  The column builders are
    resolved into column descriptors by building each against a
    synthetic table of the given name. *)
Record Table := mkTable {
  tableName : string;
  tableColumns : Fields
}.

Definition mysqlTable (n : string) (columns : list (string * ColumnBuilder)) : Table :=
  mkTable n (map (fun kb => (fst kb, FColumn (build n (snd kb)))) columns).

Definition getTableColumns (t : Table) : Fields := tableColumns t.

(** The interface [TypedQueryBuilder]: what [getSelectedFields()] and
    [getSQL()] return. *)
Record TypedQueryBuilder := mkQuery {
  getSelectedFields : Fields;
  getSQL : SQL
}.

(** ** The selection proxy *)

Module SelectionProxy.

(** The spec names ['error'] and ['alias']; each option has other
    values that this file never passes. *)
Inductive SqlBehavior := SqlError | SqlOther.
Inductive SqlAliasedBehavior := AliasedAlias | AliasedOther.

Record SelectionProxyConfig := mkSelectionProxyConfig {
  alias : option string;
  sqlBehavior : SqlBehavior;
  sqlAliasedBehavior : SqlAliasedBehavior;
  replaceOriginalName : bool
}.

(** Modelled from the spec: the handler of [~/subquery] is configured
    by the options [new SelectionProxyHandler(config)] receives. *)
Record SelectionProxyHandler := mkHandler { handlerConfig : SelectionProxyConfig }.

Definition new_SelectionProxyHandler (c : SelectionProxyConfig) : SelectionProxyHandler :=
  mkHandler c.

(** Modelled from the spec: what the handler of [~/subquery] does with
    the value of a field that is read through it.  A plain, unaliased
    expression fails under ['error']; an aliased one is referred to by
    its alias under ['alias']; a column is re-qualified by the
    handler's alias, and with [replaceOriginalName] the name of the
    table it came from is replaced as well. *)
Definition resolve (h : SelectionProxyHandler) (prop : string) (v : Field)
  : Outcome Field :=
  match v with
  | FSql s =>
      match sqlBehavior (handlerConfig h) with
      | SqlError =>
          Throws (Error ("You tried to reference " ++ prop
                         ++ " which is a raw SQL field without an alias")%string)
      | SqlOther => Returns (FSql s)
      end
  | FAliased s a =>
      match sqlAliasedBehavior (handlerConfig h) with
      | AliasedAlias => Returns (FAliased s a)
      | AliasedOther => Returns (FSql s)
      end
  | FColumn c =>
      match alias (handlerConfig h) with
      | Some t =>
          Returns (FColumn
            (mkColumn t
               (if replaceOriginalName (handlerConfig h) then t else columnOriginalTable c)
               (columnName c) (columnType c)))
      | None => Returns (FColumn c)
      end
  end.

(** [new Proxy(target, handler)]: construction stores the two and runs
    no trap. *)
Record Proxy (T : Type) := mkProxy {
  target : T;
  handler : SelectionProxyHandler
}.
Arguments mkProxy {T} _ _.
Arguments target {T} _.
Arguments handler {T} _.

Definition new_Proxy {T} (t : T) (h : SelectionProxyHandler) : Proxy T :=
  mkProxy t h.

End SelectionProxy.

Export SelectionProxy.

(** A selection held by a view: the object itself, or a proxy around it. *)
Inductive Selection :=
| Plain (fields : Fields)
| Proxied (p : Proxy Fields).

Definition selectionFields (s : Selection) : Fields :=
  match s with
  | Plain fs => fs
  | Proxied p => target p
  end.

(** Reading property [prop] of a selection; the read of a proxied one
    goes through the handler's [get] trap. *)
Definition Selection_get (s : Selection) (prop : string) : Outcome (option Field) :=
  match s with
  | Plain fs => Returns (getProperty fs prop)
  | Proxied p =>
      match getProperty (target p) prop with
      | None => Returns None
      | Some v =>
          match resolve (handler p) prop v with
          | Returns v' => Returns (Some v')
          | Throws e => Throws e
          end
      end
  end.

(** ** The view descriptor *)

Module View.

(** Modelled from the spec: the base class [View] of [~/view], whose
    constructor receives [config] through [super(config)].  It carries
    the name, the schema, the selected fields and the backing query. *)
Record Config := mkConfig {
  name : string;
  schema : option string;
  selectedFields : Selection;
  query : option SQL
}.

End View.

(** [MySqlView]: the base configuration and the slot [[MySqlViewConfig]],
    which holds a reference to a config object or [undefined]. *)
Record MySqlView := mkView {
  ViewBaseConfig : View.Config;
  MySqlViewConfig : option loc
}.

(** [constructor({ mysqlConfig, config })] *)
Definition new_MySqlView (mysqlConfig : option loc) (cfg : View.Config) : Js MySqlView :=
  ret (mkView cfg mysqlConfig).

(** [MySqlViewWithSelection]: the descriptor as the builders return it,
    behind the selection proxy. *)
Definition MySqlViewWithSelection := Proxy MySqlView.

(** Reading field [prop] of a descriptor: the trap takes the value from
    the view's selected fields and resolves it. *)
Definition MySqlViewWithSelection_get (v : MySqlViewWithSelection) (prop : string)
  : Outcome (option Field) :=
  match Selection_get (View.selectedFields (ViewBaseConfig (target v))) prop with
  | Throws e => Throws e
  | Returns None => Returns None
  | Returns (Some f) =>
      match resolve (handler v) prop f with
      | Returns f' => Returns (Some f')
      | Throws e => Throws e
      end
  end.


(** ** [ViewBuilder]: the view's shape comes from a query *)

(** The subclass adds no field to [ViewBuilderCore]. *)
Definition ViewBuilder := ViewBuilderCore.

Definition new_ViewBuilder (n : string) (s : option string) : Js ViewBuilder :=
  new_ViewBuilderCore n s.

(** The argument of [as]: a query, or a function from a [QueryBuilder]
    to a query. *)
Inductive QueryOrFactory :=
| Query (q : TypedQueryBuilder)
| Factory (f : QueryBuilder -> TypedQueryBuilder).

(** The call [f(arg)], entered in the log of factory calls. *)
Definition callFactory (f : QueryBuilder -> TypedQueryBuilder) (arg : QueryBuilder)
  : Js TypedQueryBuilder :=
  fun st =>
    (Returns (f arg),
     mkStore (configs st) (queryBuilders st) (factoryCalls st ++ [arg])).

Module ViewBuilder.

Definition as_ (this : ViewBuilder) (qb : QueryOrFactory) : Js MySqlViewWithSelection :=
  let! qb :=
    match qb with
    | Factory f =>
        let! fresh := newQueryBuilder in
        callFactory f fresh
    | Query q => ret q
    end in
  let selectionProxy :=
    new_SelectionProxyHandler
      {| alias := Some (name this);
         sqlBehavior := SqlError;
         sqlAliasedBehavior := AliasedAlias;
         replaceOriginalName := true |} in
  let aliasedSelection := new_Proxy (getSelectedFields qb) selectionProxy in
  let! view :=
    new_MySqlView (Some (config this))
      {| View.name := name this;
         View.schema := schema this;
         View.selectedFields := Proxied aliasedSelection;
         View.query := Some (inlineParams (getSQL qb)) |} in
  ret (new_Proxy view selectionProxy).

End ViewBuilder.

(** ** [ManualViewBuilder]: the view's columns are declared *)

Record ManualViewBuilder := mkManual {
  core : ViewBuilderCore;
  columns : Fields
}.

Definition new_ManualViewBuilder (n : string) (cols : list (string * ColumnBuilder))
    (s : option string) : Js ManualViewBuilder :=
  let! super := new_ViewBuilderCore n s in
  ret (mkManual super (getTableColumns (mysqlTable n cols))).

Module ManualViewBuilder.

Definition existing (this : ManualViewBuilder) : Js MySqlViewWithSelection :=
  let! view :=
    new_MySqlView None
      {| View.name := name (core this);
         View.schema := schema (core this);
         View.selectedFields := Plain (columns this);
         View.query := None |} in
  ret (new_Proxy view
         (new_SelectionProxyHandler
            {| alias := Some (name (core this));
               sqlBehavior := SqlError;
               sqlAliasedBehavior := AliasedAlias;
               replaceOriginalName := true |})).

Definition as_ (this : ManualViewBuilder) (query : SQL) : Js MySqlViewWithSelection :=
  let! view :=
    new_MySqlView (Some (config (core this)))
      {| View.name := name (core this);
         View.schema := schema (core this);
         View.selectedFields := Plain (columns this);
         View.query := Some (inlineParams query) |} in
  ret (new_Proxy view
         (new_SelectionProxyHandler
            {| alias := Some (name (core this));
               sqlBehavior := SqlError;
               sqlAliasedBehavior := AliasedAlias;
               replaceOriginalName := true |})).

End ManualViewBuilder.

(** ** The entry points *)

Inductive AnyViewBuilder :=
| IsViewBuilder (b : ViewBuilder)
| IsManualViewBuilder (b : ManualViewBuilder).

Definition mysqlViewWithSchema (n : string)
    (selection : option (list (string * ColumnBuilder))) (s : option string)
  : Js AnyViewBuilder :=
  match selection with
  | Some cols =>
      let! b := new_ManualViewBuilder n cols s in
      ret (IsManualViewBuilder b)
  | None =>
      let! b := new_ViewBuilder n s in
      ret (IsViewBuilder b)
  end.

Definition mysqlView (n : string) (selection : option (list (string * ColumnBuilder)))
  : Js AnyViewBuilder :=
  mysqlViewWithSchema n selection None.

Definition builderCore (b : AnyViewBuilder) : ViewBuilderCore :=
  match b with
  | IsViewBuilder b => b
  | IsManualViewBuilder b => core b
  end.

(** ** Vocabulary for the properties *)

(** One call of an option setter, and a fluent chain of them. *)
Inductive SetterCall :=
| CallAlgorithm (a : Algorithm)
| CallDefiner (d : string)
| CallSqlSecurity (s : SqlSecurity)
| CallWithCheckOption (w : option CheckOption).

Definition callSetter (this : ViewBuilderCore) (c : SetterCall) : Js ViewBuilderCore :=
  match c with
  | CallAlgorithm a => ViewBuilderCore.algorithm this a
  | CallDefiner d => ViewBuilderCore.definer this d
  | CallSqlSecurity s => ViewBuilderCore.sqlSecurity this s
  | CallWithCheckOption w => ViewBuilderCore.withCheckOption this w
  end.

Fixpoint callSetters (this : ViewBuilderCore) (cs : list SetterCall) : Js ViewBuilderCore :=
  match cs with
  | [] => ret this
  | c :: rest =>
      let! this' := callSetter this c in
      callSetters this' rest
  end.

(** What a setter call does to the config object it writes to. *)
Definition applySetter (c : SetterCall) (cfg : ViewBuilderConfig) : ViewBuilderConfig :=
  match c with
  | CallAlgorithm a => set_algorithm a cfg
  | CallDefiner d => set_definer d cfg
  | CallSqlSecurity s => set_sqlSecurity s cfg
  | CallWithCheckOption w => set_withCheckOption (default Cascaded w) cfg
  end.

Definition applySetters (cs : list SetterCall) (cfg : ViewBuilderConfig) : ViewBuilderConfig :=
  foldl (fun acc c => applySetter c acc) cfg cs.

(** The store with another map of config objects. *)
Definition withConfigs (st : Store) (m : gmap loc ViewBuilderConfig) : Store :=
  mkStore m (queryBuilders st) (factoryCalls st).

(** [builder.config], read through the reference. *)
Definition builderConfig (st : Store) (this : ViewBuilderCore) : option ViewBuilderConfig :=
  configs st !! config this.

(** [view[MySqlViewConfig]], read through the reference; [None] is
    [undefined]. *)
Definition dialectConfig (st : Store) (v : MySqlViewWithSelection)
  : option ViewBuilderConfig :=
  match MySqlViewConfig (target v) with
  | Some l => configs st !! l
  | None => None
  end.

(** Everything a reader sees of a descriptor in a given store. *)
Record Observed := mkObserved {
  seenName : string;
  seenSchema : option string;
  seenSelectedFields : Selection;
  seenQuery : option SQL;
  seenDialect : option ViewBuilderConfig
}.

Definition observe (st : Store) (v : MySqlViewWithSelection) : Observed :=
  let c := ViewBaseConfig (target v) in
  mkObserved (View.name c) (View.schema c) (View.selectedFields c) (View.query c)
    (dialectConfig st v).

(** A descriptor whose dialect slot is [undefined] or refers to an
    object of the store. *)
Definition descriptorOk (st : Store) (v : MySqlViewWithSelection) : Prop :=
  match MySqlViewConfig (target v) with
  | Some l => is_Some (configs st !! l)
  | None => True
  end.

(** The operations of the module, and the store each leaves behind. *)
Inductive Operation :=
| OpNewViewBuilder (n : string) (s : option string)
| OpNewManualViewBuilder (n : string) (cols : list (string * ColumnBuilder)) (s : option string)
| OpSetter (b : ViewBuilderCore) (c : SetterCall)
| OpViewBuilderAs (b : ViewBuilder) (q : QueryOrFactory)
| OpManualAs (b : ManualViewBuilder) (q : SQL)
| OpExisting (b : ManualViewBuilder).

Definition perform (op : Operation) (st : Store) : Store :=
  match op with
  | OpNewViewBuilder n s => snd (new_ViewBuilder n s st)
  | OpNewManualViewBuilder n cols s => snd (new_ManualViewBuilder n cols s st)
  | OpSetter b c => snd (callSetter b c st)
  | OpViewBuilderAs b q => snd (ViewBuilder.as_ b q st)
  | OpManualAs b q => snd (ManualViewBuilder.as_ b q st)
  | OpExisting b => snd (ManualViewBuilder.existing b st)
  end.

Definition performAll (ops : list Operation) (st : Store) : Store :=
  foldl (fun acc op => perform op acc) st ops.

(** Among [ops], the setter calls made on a builder whose config object
    is the one the dialect slot of [v] refers to. *)
Definition setterSeenBy (v : MySqlViewWithSelection) (op : Operation) : list SetterCall :=
  match op with
  | OpSetter b c =>
      if decide (MySqlViewConfig (target v) = Some (config b)) then [c] else []
  | _ => []
  end.

Definition settersSeenBy (v : MySqlViewWithSelection) (ops : list Operation)
  : list SetterCall :=
  flat_map (setterSeenBy v) ops.

(** Among [ops], the setter calls made on a builder whose config object
    is at [l]. *)
Definition setterOn (l : loc) (op : Operation) : list SetterCall :=
  match op with
  | OpSetter b c => if decide (config b = l) then [c] else []
  | _ => []
  end.

Definition settersOn (l : loc) (ops : list Operation) : list SetterCall :=
  flat_map (setterOn l) ops.

(** The query that [ViewBuilder.as] works on: the argument itself, or
    what the factory returns for the next [QueryBuilder]. *)
Definition sourceQuery (qb : QueryOrFactory) (st : Store) : TypedQueryBuilder :=
  match qb with
  | Query q => q
  | Factory f => f (mkQueryBuilder (queryBuilders st))
  end.

(** The option that a setter call writes. *)
Inductive OptionName := OptAlgorithm | OptDefiner | OptSqlSecurity | OptWithCheckOption.

Definition setterOption (c : SetterCall) : OptionName :=
  match c with
  | CallAlgorithm _ => OptAlgorithm
  | CallDefiner _ => OptDefiner
  | CallSqlSecurity _ => OptSqlSecurity
  | CallWithCheckOption _ => OptWithCheckOption
  end.

(** The values that the calls of one setter in a chain store, in call
    order. *)
Definition algorithmArgs (cs : list SetterCall) : list Algorithm :=
  omap (fun c => match c with CallAlgorithm a => Some a | _ => None end) cs.

Definition definerArgs (cs : list SetterCall) : list string :=
  omap (fun c => match c with CallDefiner d => Some d | _ => None end) cs.

Definition sqlSecurityArgs (cs : list SetterCall) : list SqlSecurity :=
  omap (fun c => match c with CallSqlSecurity s => Some s | _ => None end) cs.

Definition withCheckOptionArgs (cs : list SetterCall) : list CheckOption :=
  omap (fun c => match c with
                 | CallWithCheckOption w => Some (default Cascaded w)
                 | _ => None
                 end) cs.

(** The last of the stored values, or the old value of the field when
    the chain has no call of the setter. *)
Definition lastOr {A} (old : option A) (args : list A) : option A :=
  match last args with
  | Some a => Some a
  | None => old
  end.

(** The operations that call a query factory. *)
Definition callsFactory (op : Operation) : bool :=
  match op with
  | OpViewBuilderAs _ (Factory _) => true
  | _ => false
  end.

(** A log of factory calls in which no [QueryBuilder] occurs twice and
    every one was constructed before. *)
Definition logOk (st : Store) : Prop :=
  NoDup (factoryCalls st)
  /\ Forall (fun q => qb_serial q < queryBuilders st) (factoryCalls st).

(** ** Sample inputs *)

Definition sampleBuilder : ViewBuilderCore := mkCore "active_users" None 1%positive.

(** The store right after [new ViewBuilder("active_users", undefined)]. *)
Definition sampleStore : Store :=
  snd (new_ViewBuilder "active_users" None emptyStore).

Definition sampleSql : SQL :=
  [Text "select id, lower(name) from users where age > "; Placeholder "18"].

(** A query that selects a column and a raw expression without alias. *)
Definition rawFieldQuery : TypedQueryBuilder :=
  mkQuery
    [("id", FColumn (mkColumn "users" "users" "id" "int"));
     ("lowered", FSql [Text "lower(name)"])]
    sampleSql.

(** A query whose expression has an alias, and the descriptor that
    [as] makes from it on the sample builder. *)
Definition aliasedFieldQuery : TypedQueryBuilder :=
  mkQuery
    [("id", FColumn (mkColumn "users" "users" "id" "int"));
     ("lowered", FAliased [Text "lower(name)"] "lowered")]
    sampleSql.

Definition sampleView : MySqlViewWithSelection :=
  let h := mkHandler (mkSelectionProxyConfig (Some "active_users") SqlError AliasedAlias true) in
  mkProxy
    (mkView
       (View.mkConfig "active_users" None
          (Proxied (mkProxy (getSelectedFields aliasedFieldQuery) h))
          (Some [Text "select id, lower(name) from users where age > "; Literal "18"]))
       (Some 1%positive))
    h.

(** Calls made after the descriptor exists: two on its builder, and in
    between the construction of another builder and a call on that one. *)
Definition laterOperations : list Operation :=
  [OpSetter sampleBuilder (CallAlgorithm AlgMerge);
   OpNewViewBuilder "other" None;
   OpSetter (mkCore "other" None 2%positive) (CallSqlSecurity SecInvoker);
   OpSetter sampleBuilder (CallWithCheckOption None)].

(** Two views finalised with factories, among other calls. *)
Definition factoryOperations : list Operation :=
  [OpViewBuilderAs sampleBuilder (Factory (fun _ => aliasedFieldQuery));
   OpSetter sampleBuilder (CallDefiner "root@localhost");
   OpViewBuilderAs sampleBuilder (Query rawFieldQuery);
   OpViewBuilderAs sampleBuilder (Factory (fun _ => rawFieldQuery))].

Definition sampleColumns : list (string * ColumnBuilder) :=
  [("id", mkColumnBuilder "id" "int"); ("name", mkColumnBuilder "name" "text")].

(** ** Running the setters *)

Lemma updateConfig_run l f st c :
  configs st !! l = Some c ->
  updateConfig l f st = (Returns tt, withConfigs st (<[l := f c]> (configs st))).
Proof. intros H. unfold updateConfig. now rewrite H. Qed.

Lemma callSetter_run this s st c :
  builderConfig st this = Some c ->
  callSetter this s st
  = (Returns this, withConfigs st (<[config this := applySetter s c]> (configs st))).
Proof.
  intros H. unfold builderConfig in H.
  destruct s; cbn [callSetter applySetter];
    unfold ViewBuilderCore.algorithm, ViewBuilderCore.definer,
      ViewBuilderCore.sqlSecurity, ViewBuilderCore.withCheckOption, bind;
    now rewrite (updateConfig_run _ _ _ _ H).
Qed.

Lemma withConfigs_id st : withConfigs st (configs st) = st.
Proof. now destruct st. Qed.

Lemma callSetters_run cs : forall this st c,
  builderConfig st this = Some c ->
  callSetters this cs st
  = (Returns this, withConfigs st (<[config this := applySetters cs c]> (configs st))).
Proof.
  induction cs as [|s cs IH]; intros this st c H.
  - cbn. unfold ret. f_equal. unfold builderConfig in H.
    rewrite insert_id by exact H. symmetry. apply withConfigs_id.
  - cbn [callSetters]. unfold bind. rewrite (callSetter_run _ _ _ _ H).
    rewrite (IH this _ (applySetter s c)).
    + cbn. unfold withConfigs. cbn. now rewrite insert_insert_eq.
    + unfold builderConfig, withConfigs. cbn. apply lookup_insert_eq.
Qed.

Lemma builderConfig_written st this c :
  builderConfig (withConfigs st (<[config this := c]> (configs st))) this = Some c.
Proof. unfold builderConfig, withConfigs. cbn. apply lookup_insert_eq. Qed.

Lemma callSetter_twice_run this s1 s2 st c :
  builderConfig st this = Some c ->
  (let! b := callSetter this s1 in callSetter b s2) st
  = (Returns this,
     withConfigs st (<[config this := applySetter s2 (applySetter s1 c)]> (configs st))).
Proof.
  intros H. unfold bind. rewrite (callSetter_run _ _ _ _ H).
  rewrite (callSetter_run this s2 _ (applySetter s1 c)).
  - unfold withConfigs. cbn. now rewrite insert_insert_eq.
  - unfold builderConfig, withConfigs. cbn. apply lookup_insert_eq.
Qed.

(** The constructor's store: a fresh, empty config object, the rest kept. *)
Lemma new_ViewBuilderCore_run n s st :
  let l := fresh (dom (configs st)) in
  new_ViewBuilderCore n s st
  = (Returns (mkCore n s l), withConfigs st (<[l := emptyConfig]> (configs st)))
  /\ configs st !! l = None.
Proof.
  cbn. split; [reflexivity|].
  apply not_elem_of_dom. apply is_fresh.
Qed.

(** ** The option setters *)

(** C7: on every builder, [withCheckOption()] without argument does what
    [withCheckOption('cascaded')] does: the two calls return the same
    builder and leave the same store, and the config's [withCheckOption]
    field is then ['cascaded']. *)
Theorem withCheckOption_default_cascaded this st c :
  builderConfig st this = Some c ->
  ViewBuilderCore.withCheckOption this None st
  = ViewBuilderCore.withCheckOption this (Some Cascaded) st
  /\ exists st',
      ViewBuilderCore.withCheckOption this None st = (Returns this, st')
      /\ withCheckOption <$> builderConfig st' this = Some (Some Cascaded).
Proof.
  intros H. split; [reflexivity|].
  eexists. split.
  - exact (callSetter_run this (CallWithCheckOption None) st c H).
  - now rewrite builderConfig_written.
Qed.

Lemma withCheckOption_default_cascaded_witness :
  builderConfig sampleStore sampleBuilder = Some emptyConfig
  /\ (ViewBuilderCore.withCheckOption sampleBuilder None sampleStore
      = ViewBuilderCore.withCheckOption sampleBuilder (Some Cascaded) sampleStore
      /\ exists st',
          ViewBuilderCore.withCheckOption sampleBuilder None sampleStore
          = (Returns sampleBuilder, st')
          /\ withCheckOption <$> builderConfig st' sampleBuilder = Some (Some Cascaded)).
Proof.
  split; [reflexivity|].
  apply (withCheckOption_default_cascaded sampleBuilder sampleStore emptyConfig).
  reflexivity.
Defined.

(** C8: [algorithm(a).definer(d)] and [definer(d).algorithm(a)] return
    the same builder and leave the same store; its config then has both
    options set and the other two as before. *)
Theorem algorithm_definer_commute this a d st c :
  builderConfig st this = Some c ->
  let ad := (let! b := ViewBuilderCore.algorithm this a in
             ViewBuilderCore.definer b d) st in
  let da := (let! b := ViewBuilderCore.definer this d in
             ViewBuilderCore.algorithm b a) st in
  ad = da
  /\ fst ad = Returns this
  /\ builderConfig (snd ad) this
     = Some (mkViewBuilderConfig (Some a) (Some d) (sqlSecurity c) (withCheckOption c)).
Proof.
  intros H.
  pose proof (callSetter_twice_run this (CallAlgorithm a) (CallDefiner d) st c H) as Had.
  pose proof (callSetter_twice_run this (CallDefiner d) (CallAlgorithm a) st c H) as Hda.
  cbn [callSetter] in Had, Hda.
  cbn zeta. rewrite Had, Hda. repeat split.
  apply builderConfig_written.
Qed.

Lemma algorithm_definer_commute_witness :
  builderConfig sampleStore sampleBuilder = Some emptyConfig
  /\ (let! b := ViewBuilderCore.algorithm sampleBuilder AlgMerge in
      ViewBuilderCore.definer b "root@localhost") sampleStore
     = (let! b := ViewBuilderCore.definer sampleBuilder "root@localhost" in
        ViewBuilderCore.algorithm b AlgMerge) sampleStore.
Proof.
  split; [reflexivity|].
  apply (algorithm_definer_commute sampleBuilder AlgMerge "root@localhost"
           sampleStore emptyConfig).
  reflexivity.
Defined.

(** C10: each setter returns the builder and writes its own field of the
    config only, the other three fields keeping their values; a second
    call of the same setter overwrites the first, again leaving the other
    three fields as they were before the two calls. *)
Theorem setters_own_field_last_write_wins this st c :
  builderConfig st this = Some c ->
  let after (m : Js ViewBuilderCore) := builderConfig (snd (m st)) this in
  (forall a,
      fst (ViewBuilderCore.algorithm this a st) = Returns this
      /\ after (ViewBuilderCore.algorithm this a)
         = Some (mkViewBuilderConfig (Some a) (definer c) (sqlSecurity c) (withCheckOption c)))
  /\ (forall d,
      fst (ViewBuilderCore.definer this d st) = Returns this
      /\ after (ViewBuilderCore.definer this d)
         = Some (mkViewBuilderConfig (algorithm c) (Some d) (sqlSecurity c) (withCheckOption c)))
  /\ (forall s,
      fst (ViewBuilderCore.sqlSecurity this s st) = Returns this
      /\ after (ViewBuilderCore.sqlSecurity this s)
         = Some (mkViewBuilderConfig (algorithm c) (definer c) (Some s) (withCheckOption c)))
  /\ (forall w,
      fst (ViewBuilderCore.withCheckOption this w st) = Returns this
      /\ after (ViewBuilderCore.withCheckOption this w)
         = Some (mkViewBuilderConfig (algorithm c) (definer c) (sqlSecurity c)
                   (Some (default Cascaded w))))
  /\ (forall a b,
      after (let! t := ViewBuilderCore.algorithm this a in ViewBuilderCore.algorithm t b)
      = Some (mkViewBuilderConfig (Some b) (definer c) (sqlSecurity c) (withCheckOption c)))
  /\ (forall d e,
      after (let! t := ViewBuilderCore.definer this d in ViewBuilderCore.definer t e)
      = Some (mkViewBuilderConfig (algorithm c) (Some e) (sqlSecurity c) (withCheckOption c)))
  /\ (forall s t,
      after (let! b := ViewBuilderCore.sqlSecurity this s in ViewBuilderCore.sqlSecurity b t)
      = Some (mkViewBuilderConfig (algorithm c) (definer c) (Some t) (withCheckOption c)))
  /\ (forall w x,
      after (let! b := ViewBuilderCore.withCheckOption this w in
             ViewBuilderCore.withCheckOption b x)
      = Some (mkViewBuilderConfig (algorithm c) (definer c) (sqlSecurity c)
                (Some (default Cascaded x)))).
Proof.
  intros H after.
  assert (One : forall s,
             fst (callSetter this s st) = Returns this
             /\ after (callSetter this s) = Some (applySetter s c)).
  { intros s. subst after. cbn beta. rewrite (callSetter_run _ _ _ _ H).
    split; [reflexivity|]. apply builderConfig_written. }
  assert (Two : forall s1 s2,
             after (let! b := callSetter this s1 in callSetter b s2)
             = Some (applySetter s2 (applySetter s1 c))).
  { intros s1 s2. subst after. cbn beta. rewrite (callSetter_twice_run _ _ _ _ _ H).
    apply builderConfig_written. }
  repeat split.
  - apply (One (CallAlgorithm a)).
  - apply (One (CallAlgorithm a)).
  - apply (One (CallDefiner d)).
  - apply (One (CallDefiner d)).
  - apply (One (CallSqlSecurity s)).
  - apply (One (CallSqlSecurity s)).
  - apply (One (CallWithCheckOption w)).
  - apply (One (CallWithCheckOption w)).
  - intros a b. apply (Two (CallAlgorithm a) (CallAlgorithm b)).
  - intros d e. apply (Two (CallDefiner d) (CallDefiner e)).
  - intros s t. apply (Two (CallSqlSecurity s) (CallSqlSecurity t)).
  - intros w x. apply (Two (CallWithCheckOption w) (CallWithCheckOption x)).
Qed.

Lemma setters_own_field_last_write_wins_witness :
  builderConfig sampleStore sampleBuilder = Some emptyConfig
  /\ builderConfig
       (snd ((let! t := ViewBuilderCore.algorithm sampleBuilder AlgMerge in
              ViewBuilderCore.algorithm t AlgTemptable) sampleStore))
       sampleBuilder
     = Some (mkViewBuilderConfig (Some AlgTemptable) None None None).
Proof.
  split; [reflexivity|].
  apply (setters_own_field_last_write_wins sampleBuilder sampleStore emptyConfig).
  reflexivity.
Defined.

(** ** The terminal operations *)

(** Each terminal operation returns; its descriptor and store in full. *)
Lemma ViewBuilder_as_run this qb st :
  ViewBuilder.as_ this qb st
  = (Returns
       (mkProxy
          (mkView
             (View.mkConfig (name this) (schema this)
                (Proxied
                   (mkProxy (getSelectedFields (sourceQuery qb st))
                      (mkHandler
                         (mkSelectionProxyConfig (Some (name this)) SqlError AliasedAlias true))))
                (Some (inlineParams (getSQL (sourceQuery qb st)))))
             (Some (config this)))
          (mkHandler (mkSelectionProxyConfig (Some (name this)) SqlError AliasedAlias true))),
     match qb with
     | Query _ => st
     | Factory _ =>
         mkStore (configs st) (S (queryBuilders st))
           (factoryCalls st ++ [mkQueryBuilder (queryBuilders st)])
     end).
Proof. destruct qb; reflexivity. Qed.

Lemma ManualViewBuilder_as_run this q st :
  ManualViewBuilder.as_ this q st
  = (Returns
       (mkProxy
          (mkView
             (View.mkConfig (name (core this)) (schema (core this))
                (Plain (columns this)) (Some (inlineParams q)))
             (Some (config (core this))))
          (mkHandler
             (mkSelectionProxyConfig (Some (name (core this))) SqlError AliasedAlias true))),
     st).
Proof. reflexivity. Qed.

Lemma ManualViewBuilder_existing_run this st :
  ManualViewBuilder.existing this st
  = (Returns
       (mkProxy
          (mkView
             (View.mkConfig (name (core this)) (schema (core this))
                (Plain (columns this)) None)
             None)
          (mkHandler
             (mkSelectionProxyConfig (Some (name (core this))) SqlError AliasedAlias true))),
     st).
Proof. reflexivity. Qed.

Lemma new_ManualViewBuilder_run n cols s st :
  let l := fresh (dom (configs st)) in
  new_ManualViewBuilder n cols s st
  = (Returns (mkManual (mkCore n s l) (getTableColumns (mysqlTable n cols))),
     withConfigs st (<[l := emptyConfig]> (configs st))).
Proof. reflexivity. Qed.

Lemma keys_mysqlTable n cols : keys (getTableColumns (mysqlTable n cols)) = keys cols.
Proof.
  unfold keys, getTableColumns, mysqlTable. cbn.
  induction cols as [|[k b] cols IH]; [reflexivity|].
  cbn. now rewrite IH.
Qed.

(** C3: for every name, column mapping and schema, the builder that
    [mysqlViewWithSchema] makes for them is the manually-typed one, and
    its [existing()] returns a descriptor without backing query and with
    the dialect slot [undefined]. *)
Theorem existing_no_query_no_config n cols s st :
  exists b st1 v,
    mysqlViewWithSchema n (Some cols) s st = (Returns (IsManualViewBuilder b), st1)
    /\ ManualViewBuilder.existing b st1 = (Returns v, st1)
    /\ View.query (ViewBaseConfig (target v)) = None
    /\ MySqlViewConfig (target v) = None
    /\ dialectConfig st1 v = None.
Proof.
  eexists _, _, _. split; [reflexivity|].
  split; [apply ManualViewBuilder_existing_run|].
  repeat split.
Qed.

(** C9: [existing()] on a manually-typed builder returns a descriptor
    with the dialect slot [undefined] whatever setters were called on
    the builder before; the options those calls stored stay in the
    builder's config and do not reach the descriptor. *)
Theorem existing_discards_options n cols s cs st :
  exists b st1 st2 v,
    new_ManualViewBuilder n cols s st = (Returns b, st1)
    /\ callSetters (core b) cs st1 = (Returns (core b), st2)
    /\ builderConfig st2 (core b) = Some (applySetters cs emptyConfig)
    /\ ManualViewBuilder.existing b st2 = (Returns v, st2)
    /\ MySqlViewConfig (target v) = None
    /\ dialectConfig st2 v = None.
Proof.
  pose proof (new_ManualViewBuilder_run n cols s st) as Hnew. cbn zeta in Hnew.
  set (l := fresh (dom (configs st))) in *.
  set (b := mkManual (mkCore n s l) (getTableColumns (mysqlTable n cols))) in *.
  set (st1 := withConfigs st (<[l := emptyConfig]> (configs st))) in *.
  assert (Hb : builderConfig st1 (core b) = Some emptyConfig).
  { apply (builderConfig_written st (core b)). }
  eexists b, st1, _, _. split; [exact Hnew|].
  split; [exact (callSetters_run cs (core b) st1 emptyConfig Hb)|].
  split; [apply builderConfig_written|].
  split; [apply ManualViewBuilder_existing_run|].
  split; reflexivity.
Qed.

(** C4: the selected fields of the descriptors that [as(query)] and
    [existing()] return for a manually-typed builder have the keys of
    the column mapping given to the constructor, in the same order. *)
Theorem manual_view_keys_roundtrip n cols s q st :
  exists b st1 v1 v2,
    new_ManualViewBuilder n cols s st = (Returns b, st1)
    /\ ManualViewBuilder.as_ b q st1 = (Returns v1, st1)
    /\ ManualViewBuilder.existing b st1 = (Returns v2, st1)
    /\ keys (selectionFields (View.selectedFields (ViewBaseConfig (target v1)))) = keys cols
    /\ keys (selectionFields (View.selectedFields (ViewBaseConfig (target v2)))) = keys cols.
Proof.
  eexists _, _, _, _. split; [apply new_ManualViewBuilder_run|].
  split; [apply ManualViewBuilder_as_run|].
  split; [apply ManualViewBuilder_existing_run|].
  cbn. split; apply keys_mysqlTable.
Qed.

(** C5: [ViewBuilder.as] returns a descriptor for every argument.  A
    factory is called once, on a [QueryBuilder] constructed for that call
    and distinct from all constructed before; a query is taken as it is.
    The descriptor's query is the source query's SQL with the parameters
    inlined, and its selected fields are the source query's selected
    fields behind the selection proxy. *)
Theorem ViewBuilder_as_query_and_fields this qb st :
  exists v st',
    ViewBuilder.as_ this qb st = (Returns v, st')
    /\ View.query (ViewBaseConfig (target v))
       = Some (inlineParams (getSQL (sourceQuery qb st)))
    /\ View.selectedFields (ViewBaseConfig (target v))
       = Proxied (new_Proxy (getSelectedFields (sourceQuery qb st)) (handler v))
    /\ configs st' = configs st
    /\ match qb with
       | Query q =>
           sourceQuery qb st = q
           /\ factoryCalls st' = factoryCalls st
           /\ queryBuilders st' = queryBuilders st
       | Factory f =>
           let arg := mkQueryBuilder (queryBuilders st) in
           sourceQuery qb st = f arg
           /\ factoryCalls st' = factoryCalls st ++ [arg]
           /\ queryBuilders st' = S (queryBuilders st)
           /\ forall k, k < queryBuilders st -> mkQueryBuilder k <> arg
       end.
Proof.
  eexists _, _. split; [apply ViewBuilder_as_run|].
  cbn. repeat split; destruct qb; cbn; repeat split.
  intros k Hk [= ->]. lia.
Qed.

(** C6: the three terminal operations put their descriptor behind a
    selection proxy with the same options: the alias is the view's name,
    an unaliased plain field is an error, an aliased field is referred to
    by alias, and the original name is replaced.  [ViewBuilder.as] wraps
    the selected fields with the same handler. *)
Theorem terminal_operations_proxy_options (b : ViewBuilder) (m : ManualViewBuilder)
    (qb : QueryOrFactory) (q : SQL) (st : Store) :
  let options (v : MySqlViewWithSelection) :=
    mkSelectionProxyConfig (Some (View.name (ViewBaseConfig (target v))))
      SqlError AliasedAlias true in
  (exists v st',
      ViewBuilder.as_ b qb st = (Returns v, st')
      /\ View.name (ViewBaseConfig (target v)) = name b
      /\ handlerConfig (handler v) = options v
      /\ exists fields h,
          View.selectedFields (ViewBaseConfig (target v)) = Proxied (mkProxy fields h)
          /\ handlerConfig h = options v)
  /\ (exists v st',
      ManualViewBuilder.as_ m q st = (Returns v, st')
      /\ View.name (ViewBaseConfig (target v)) = name (core m)
      /\ handlerConfig (handler v) = options v)
  /\ (exists v st',
      ManualViewBuilder.existing m st = (Returns v, st')
      /\ View.name (ViewBaseConfig (target v)) = name (core m)
      /\ handlerConfig (handler v) = options v).
Proof.
  cbn zeta. split; [|split].
  - eexists _, _. split; [apply ViewBuilder_as_run|].
    cbn. repeat split. eexists _, _. split; reflexivity.
  - eexists _, _. split; [apply ManualViewBuilder_as_run|]. now cbn.
  - eexists _, _. split; [apply ManualViewBuilder_existing_run|]. now cbn.
Qed.

(** ** Unaliased raw expressions *)

(** C1, as the claim states it, fails: [ViewBuilder.as] on a query that
    selects a raw expression without alias does not throw. *)
Lemma as_accepts_unaliased_raw_field :
  getProperty (getSelectedFields rawFieldQuery) "lowered" = Some (FSql [Text "lower(name)"])
  /\ ~ exists e st',
        ViewBuilder.as_ sampleBuilder (Query rawFieldQuery) sampleStore = (Throws e, st').
Proof.
  split; [reflexivity|].
  intros (e & st' & H). rewrite ViewBuilder_as_run in H. discriminate H.
Qed.

(** C1, amended: [ViewBuilder.as] returns a descriptor also when a
    selected field is a raw expression without alias; the error is
    raised when that field is read, through the descriptor or through
    its selected fields. *)
Theorem as_defers_unaliased_raw_field_error this qb st prop s :
  getProperty (getSelectedFields (sourceQuery qb st)) prop = Some (FSql s) ->
  exists v st',
    ViewBuilder.as_ this qb st = (Returns v, st')
    /\ (exists e, MySqlViewWithSelection_get v prop = Throws e)
    /\ (exists e,
          Selection_get (View.selectedFields (ViewBaseConfig (target v))) prop = Throws e).
Proof.
  intros H. eexists _, _. split; [apply ViewBuilder_as_run|].
  unfold MySqlViewWithSelection_get. cbn. rewrite H. cbn.
  split; eexists; reflexivity.
Qed.

Lemma as_defers_unaliased_raw_field_error_witness :
  getProperty (getSelectedFields (sourceQuery (Query rawFieldQuery) sampleStore)) "lowered"
  = Some (FSql [Text "lower(name)"])
  /\ exists v st',
      ViewBuilder.as_ sampleBuilder (Query rawFieldQuery) sampleStore = (Returns v, st')
      /\ (exists e, MySqlViewWithSelection_get v "lowered" = Throws e)
      /\ (exists e,
            Selection_get (View.selectedFields (ViewBaseConfig (target v))) "lowered"
            = Throws e).
Proof.
  split; [reflexivity|].
  apply (as_defers_unaliased_raw_field_error sampleBuilder (Query rawFieldQuery)
           sampleStore "lowered" [Text "lower(name)"]).
  reflexivity.
Defined.

(** ** What happens to a descriptor after its construction *)

(** The config objects after one operation. *)
Lemma perform_configs op st :
  configs (perform op st)
  = match op with
    | OpNewViewBuilder _ _ | OpNewManualViewBuilder _ _ _ =>
        <[fresh (dom (configs st)) := emptyConfig]> (configs st)
    | OpSetter b c =>
        match configs st !! config b with
        | Some c0 => <[config b := applySetter c c0]> (configs st)
        | None => configs st
        end
    | _ => configs st
    end.
Proof.
  destruct op as [n s|n cols s|b c|b q|b q|b]; try reflexivity.
  - destruct (configs st !! config b) as [c0|] eqn:E.
    + cbn [perform]. now rewrite (callSetter_run b c st c0 E).
    + destruct c; cbn; unfold ViewBuilderCore.algorithm, ViewBuilderCore.definer,
        ViewBuilderCore.sqlSecurity, ViewBuilderCore.withCheckOption, bind, updateConfig;
        now rewrite E.
  - cbn [perform]. rewrite ViewBuilder_as_run. now destruct q.
Qed.

Lemma applySetters_app cs1 cs2 c :
  applySetters (cs1 ++ cs2) c = applySetters cs2 (applySetters cs1 c).
Proof. unfold applySetters. apply foldl_app. Qed.

(** One operation: the slot still refers to an object, and the object
    has changed by the setter call the descriptor sees, if any. *)
Lemma perform_dialect v op st :
  descriptorOk st v ->
  descriptorOk (perform op st) v
  /\ dialectConfig (perform op st) v
     = applySetters (setterSeenBy v op) <$> dialectConfig st v.
Proof.
  unfold descriptorOk, dialectConfig. rewrite perform_configs.
  destruct (MySqlViewConfig (target v)) as [l|] eqn:Hslot; [|now destruct op].
  intros [c0 Hl].
  assert (Hfresh : fresh (dom (configs st)) <> l).
  { intros <-. apply (is_fresh (dom (configs st))). apply elem_of_dom. eauto. }
  destruct op as [n s|n cols s|b c|b q|b q|b]; cbn [setterSeenBy];
    try (rewrite Hl; split; [eauto|reflexivity]);
    try (rewrite lookup_insert_ne by exact Hfresh; rewrite Hl; split; [eauto|reflexivity]).
  rewrite Hslot.
  destruct (decide (Some l = Some (config b))) as [[= ->]|Hne].
  - rewrite Hl, lookup_insert_eq. split; [eauto|reflexivity].
  - destruct (configs st !! config b) as [cb|].
    + rewrite lookup_insert_ne by congruence. rewrite Hl. split; [eauto|reflexivity].
    + rewrite Hl. split; [eauto|reflexivity].
Qed.

Lemma performAll_dialect ops : forall v st,
  descriptorOk st v ->
  dialectConfig (performAll ops st) v
  = applySetters (settersSeenBy v ops) <$> dialectConfig st v.
Proof.
  induction ops as [|op ops IH]; intros v st Hok.
  - cbn. now destruct (dialectConfig st v).
  - destruct (perform_dialect v op st Hok) as [Hok' Hstep].
    change (performAll (op :: ops) st) with (performAll ops (perform op st)).
    rewrite (IH v _ Hok'), Hstep.
    change (settersSeenBy v (op :: ops))
      with (setterSeenBy v op ++ settersSeenBy v ops).
    destruct (dialectConfig st v) as [c|]; cbn; [|reflexivity].
    now rewrite applySetters_app.
Qed.

(** The descriptors of [as] hold the config object of their builder. *)
Lemma as_shares_builder_config (b : ViewBuilder) (m : ManualViewBuilder)
    (qb : QueryOrFactory) (q : SQL) (st : Store) :
  (is_Some (builderConfig st b) ->
   exists v st',
     ViewBuilder.as_ b qb st = (Returns v, st')
     /\ MySqlViewConfig (target v) = Some (config b)
     /\ descriptorOk st' v)
  /\ (is_Some (builderConfig st (core m)) ->
      exists v,
        ManualViewBuilder.as_ m q st = (Returns v, st)
        /\ MySqlViewConfig (target v) = Some (config (core m))
        /\ descriptorOk st v).
Proof.
  split; intros Hb.
  - eexists _, _. split; [apply ViewBuilder_as_run|]. split; [reflexivity|].
    unfold descriptorOk. cbn. now destruct qb.
  - eexists. split; [apply ManualViewBuilder_as_run|]. now split.
Qed.

(** C2, as the claim states it, fails: a setter call on the builder,
    made after [as], changes the dialect configuration read from the
    descriptor. *)
Lemma descriptor_sees_later_setter_call :
  exists v st1,
    ViewBuilder.as_ sampleBuilder (Query aliasedFieldQuery) sampleStore = (Returns v, st1)
    /\ seenDialect (observe st1 v) = Some emptyConfig
    /\ seenDialect (observe (perform (OpSetter sampleBuilder (CallAlgorithm AlgMerge)) st1) v)
       = Some (mkViewBuilderConfig (Some AlgMerge) None None None)
    /\ observe (perform (OpSetter sampleBuilder (CallAlgorithm AlgMerge)) st1) v
       <> observe st1 v.
Proof.
  eexists _, _. split; [apply ViewBuilder_as_run|].
  split; [reflexivity|]. split; [reflexivity|].
  intros H. apply (f_equal seenDialect) in H. vm_compute in H. discriminate H.
Qed.

(** What is seen of any descriptor after a sequence of operations: the
    same name, schema, selected fields and query, and the configuration
    behind its dialect slot changed by the setter calls it sees. *)
Lemma observe_after_operations v ops st :
  descriptorOk st v ->
  observe (performAll ops st) v
  = mkObserved (seenName (observe st v)) (seenSchema (observe st v))
      (seenSelectedFields (observe st v)) (seenQuery (observe st v))
      (applySetters (settersSeenBy v ops) <$> seenDialect (observe st v)).
Proof.
  intros Hok. unfold observe. cbn. f_equal. now apply performAll_dialect.
Qed.

Example sampleView_made_by_as :
  ViewBuilder.as_ sampleBuilder (Query aliasedFieldQuery) sampleStore
  = (Returns sampleView, sampleStore).
Proof. reflexivity. Qed.

Example observe_sampleView_after_operations :
  descriptorOk sampleStore sampleView
  /\ observe (performAll laterOperations sampleStore) sampleView
     = mkObserved "active_users" None
         (View.selectedFields (ViewBaseConfig (target sampleView)))
         (View.query (ViewBaseConfig (target sampleView)))
         (Some (mkViewBuilderConfig (Some AlgMerge) None None (Some Cascaded))).
Proof.
  split; [eexists; reflexivity|].
  apply (observe_after_operations sampleView laterOperations sampleStore).
  eexists; reflexivity.
Qed.

(** A descriptor whose dialect slot refers to the object at [l] sees the
    setter calls made on the builders whose config is at [l]. *)
Lemma settersSeenBy_settersOn v l ops :
  MySqlViewConfig (target v) = Some l ->
  settersSeenBy v ops = settersOn l ops.
Proof.
  intros Hslot. unfold settersSeenBy, settersOn.
  induction ops as [|op ops IH]; [reflexivity|].
  cbn [flat_map]. rewrite IH. f_equal.
  destruct op; cbn [setterSeenBy setterOn]; try reflexivity.
  rewrite Hslot. repeat case_decide; congruence.
Qed.

(** C2, amended: the descriptors that the three terminal operations
    return keep, through any later sequence of the module's operations,
    the name, schema, selected fields and query they were constructed
    with.  The dialect slot of a descriptor made by [existing] is
    [undefined] and stays so.  The dialect slot of a descriptor made by
    [as], of either builder, holds the builder's own config object, not
    a copy: what is read through it is at every time the builder's
    current configuration, which is the configuration at construction
    changed by exactly the setter calls made afterwards on a builder
    holding that object. *)
Theorem descriptor_shares_builder_config (this : ViewBuilderCore) (cols : Fields)
    (qb : QueryOrFactory) (q : SQL) (ops : list Operation) (st : Store)
    (c : ViewBuilderConfig) :
  builderConfig st this = Some c ->
  let later := applySetters (settersOn (config this) ops) c in
  (exists v st1,
      ViewBuilder.as_ this qb st = (Returns v, st1)
      /\ MySqlViewConfig (target v) = Some (config this)
      /\ observe st1 v
         = mkObserved (name this) (schema this)
             (Proxied (mkProxy (getSelectedFields (sourceQuery qb st)) (handler v)))
             (Some (inlineParams (getSQL (sourceQuery qb st))))
             (Some c)
      /\ observe (performAll ops st1) v
         = mkObserved (name this) (schema this)
             (Proxied (mkProxy (getSelectedFields (sourceQuery qb st)) (handler v)))
             (Some (inlineParams (getSQL (sourceQuery qb st))))
             (Some later)
      /\ builderConfig (performAll ops st1) this = Some later)
  /\ (exists v,
      ManualViewBuilder.as_ (mkManual this cols) q st = (Returns v, st)
      /\ MySqlViewConfig (target v) = Some (config this)
      /\ observe st v
         = mkObserved (name this) (schema this) (Plain cols) (Some (inlineParams q))
             (Some c)
      /\ observe (performAll ops st) v
         = mkObserved (name this) (schema this) (Plain cols) (Some (inlineParams q))
             (Some later)
      /\ builderConfig (performAll ops st) this = Some later)
  /\ (exists v,
      ManualViewBuilder.existing (mkManual this cols) st = (Returns v, st)
      /\ MySqlViewConfig (target v) = None
      /\ observe st v = mkObserved (name this) (schema this) (Plain cols) None None
      /\ observe (performAll ops st) v = observe st v).
Proof.
  intros H later. unfold builderConfig in H.
  split; [|split].
  - eexists _, _. split; [apply ViewBuilder_as_run|].
    set (v := mkProxy _ _).
    set (st1 := match qb with Query _ => _ | Factory _ => _ end).
    assert (Hcfg : configs st1 = configs st) by (unfold st1; now destruct qb).
    assert (Hslot : MySqlViewConfig (target v) = Some (config this)) by reflexivity.
    assert (Hread : dialectConfig st1 v = Some c).
    { unfold dialectConfig. rewrite Hslot, Hcfg. exact H. }
    assert (Hok : descriptorOk st1 v).
    { unfold descriptorOk. rewrite Hslot, Hcfg, H. eauto. }
    pose proof (performAll_dialect ops v st1 Hok) as Hlater.
    rewrite (settersSeenBy_settersOn v _ ops Hslot), Hread in Hlater.
    split; [exact Hslot|]. split; [unfold observe; now rewrite Hread|].
    split; [unfold observe; now rewrite Hlater|].
    exact Hlater.
  - eexists. split; [apply ManualViewBuilder_as_run|].
    set (v := mkProxy _ _).
    assert (Hslot : MySqlViewConfig (target v) = Some (config this)) by reflexivity.
    assert (Hread : dialectConfig st v = Some c).
    { unfold dialectConfig. rewrite Hslot. exact H. }
    assert (Hok : descriptorOk st v).
    { unfold descriptorOk. rewrite Hslot, H. eauto. }
    pose proof (performAll_dialect ops v st Hok) as Hlater.
    rewrite (settersSeenBy_settersOn v _ ops Hslot), Hread in Hlater.
    split; [exact Hslot|]. split; [unfold observe; now rewrite Hread|].
    split; [unfold observe; now rewrite Hlater|].
    exact Hlater.
  - eexists. split; [apply ManualViewBuilder_existing_run|].
    split; [reflexivity|]. split; [reflexivity|].
    reflexivity.
Qed.

Lemma descriptor_shares_builder_config_witness :
  builderConfig sampleStore sampleBuilder = Some emptyConfig
  /\ exists v st1,
      ViewBuilder.as_ sampleBuilder (Query aliasedFieldQuery) sampleStore = (Returns v, st1)
      /\ MySqlViewConfig (target v) = Some (config sampleBuilder)
      /\ seenDialect (observe st1 v) = Some emptyConfig
      /\ seenDialect (observe (performAll laterOperations st1) v)
         = Some (mkViewBuilderConfig (Some AlgMerge) None None (Some Cascaded))
      /\ builderConfig (performAll laterOperations st1) sampleBuilder
         = Some (mkViewBuilderConfig (Some AlgMerge) None None (Some Cascaded)).
Proof.
  split; [reflexivity|].
  destruct (descriptor_shares_builder_config sampleBuilder [] (Query aliasedFieldQuery)
              sampleSql laterOperations sampleStore emptyConfig eq_refl)
    as [(v & st1 & Has & Hslot & Hnow & Hlater & Hbuilder) _].
  exists v, st1. split; [exact Has|]. split; [exact Hslot|].
  split; [now rewrite Hnow|]. split; [now rewrite Hlater|exact Hbuilder].
Defined.

(** The fields of the sample descriptor resolve under the view's name. *)
Example sampleView_fields :
  MySqlViewWithSelection_get sampleView "id"
  = Returns (Some (FColumn (mkColumn "active_users" "active_users" "id" "int")))
  /\ MySqlViewWithSelection_get sampleView "lowered"
     = Returns (Some (FAliased [Text "lower(name)"] "lowered"))
  /\ MySqlViewWithSelection_get sampleView "missing" = Returns None.
Proof. repeat split. Qed.

(** A manually-typed view declared through the entry point, with an
    option set before [existing()]. *)
Example declared_view_existing :
  (let! b := mysqlView "active_users" (Some sampleColumns) in
   let! _ := ViewBuilderCore.algorithm (builderCore b) AlgMerge in
   match b with
   | IsManualViewBuilder m => ManualViewBuilder.existing m
   | IsViewBuilder _ => throw (TypeError "existing is not a function")
   end) emptyStore
  = (Returns
       (mkProxy
          (mkView
             (View.mkConfig "active_users" None
                (Plain
                   [("id", FColumn (mkColumn "active_users" "active_users" "id" "int"));
                    ("name", FColumn (mkColumn "active_users" "active_users" "name" "text"))])
                None)
             None)
          (mkHandler
             (mkSelectionProxyConfig (Some "active_users") SqlError AliasedAlias true))),
     mkStore {[ 1%positive := mkViewBuilderConfig (Some AlgMerge) None None None ]} 0 []).
Proof. vm_compute. reflexivity. Qed.

(** ** Builders and their config objects *)

Lemma bind_returns {A B} (m : Js A) (k : A -> Js B) st a st' :
  m st = (Returns a, st') -> bind m k st = k a st'.
Proof. intros H. unfold bind. now rewrite H. Qed.

Lemma fresh_config_unused (m : gmap loc ViewBuilderConfig) : m !! fresh (dom m) = None.
Proof. apply not_elem_of_dom, is_fresh. Qed.

Lemma fresh_config_frame (m : gmap loc ViewBuilderConfig) l c :
  m !! l = Some c -> <[fresh (dom m) := emptyConfig]> m !! l = Some c.
Proof.
  intros H. rewrite lookup_insert_ne; [exact H|].
  intros E. rewrite <- E, fresh_config_unused in H. discriminate H.
Qed.

(** X1: the constructor returns a builder with the given name and
    schema and a config object of its own: empty, at a location that
    held no object before, with every object already in the store left
    as it was. *)
Theorem new_builder_own_empty_config n s st :
  exists b st',
    new_ViewBuilderCore n s st = (Returns b, st')
    /\ name b = n
    /\ schema b = s
    /\ configs st !! config b = None
    /\ builderConfig st' b = Some emptyConfig
    /\ (forall l c, configs st !! l = Some c -> configs st' !! l = Some c)
    /\ queryBuilders st' = queryBuilders st
    /\ factoryCalls st' = factoryCalls st.
Proof.
  eexists _, _. split; [reflexivity|]. cbn.
  repeat split.
  - apply fresh_config_unused.
  - unfold builderConfig. cbn. apply lookup_insert_eq.
  - intros l c. apply fresh_config_frame.
Qed.

(** The writes of a chain of setter calls, seen from any location. *)
Lemma callSetters_lookup this cs st c l :
  builderConfig st this = Some c ->
  configs (snd (callSetters this cs st)) !! l
  = if decide (l = config this) then Some (applySetters cs c) else configs st !! l.
Proof.
  intros H. rewrite (callSetters_run cs this st c H). cbn.
  case_decide as E.
  - subst l. apply lookup_insert_eq.
  - now rewrite lookup_insert_ne.
Qed.

(** X2: a chain of setter calls returns its builder and writes to the
    config object of that builder only: every other config object, the
    set of objects in the store, the count of query builders and the log
    of factory calls are as before. *)
Theorem setter_chain_writes_only_own_config this cs st c :
  builderConfig st this = Some c ->
  fst (callSetters this cs st) = Returns this
  /\ (forall l, l <> config this ->
        configs (snd (callSetters this cs st)) !! l = configs st !! l)
  /\ dom (configs (snd (callSetters this cs st))) = dom (configs st)
  /\ queryBuilders (snd (callSetters this cs st)) = queryBuilders st
  /\ factoryCalls (snd (callSetters this cs st)) = factoryCalls st.
Proof.
  intros H. split; [now rewrite (callSetters_run cs this st c H)|].
  split.
  { intros l Hl. rewrite (callSetters_lookup this cs st c l H).
    now case_decide. }
  rewrite (callSetters_run cs this st c H). cbn.
  repeat split.
  apply dom_insert_lookup_L. unfold builderConfig in H. eauto.
Qed.

Lemma setter_chain_writes_only_own_config_witness :
  builderConfig sampleStore sampleBuilder = Some emptyConfig
  /\ queryBuilders
       (snd (callSetters sampleBuilder
               [CallAlgorithm AlgMerge; CallSqlSecurity SecInvoker] sampleStore))
     = queryBuilders sampleStore.
Proof.
  split; [reflexivity|].
  apply (setter_chain_writes_only_own_config sampleBuilder
           [CallAlgorithm AlgMerge; CallSqlSecurity SecInvoker] sampleStore emptyConfig).
  reflexivity.
Defined.

(** X3: two builders never share a config object.  Whatever chains of
    setter calls are made on two builders constructed one after the
    other, each builder ends with the options of its own chain. *)
Theorem builders_do_not_share_config n1 s1 n2 s2 cs1 cs2 st :
  exists b1 b2 st',
    (let! b1 := new_ViewBuilderCore n1 s1 in
     let! b2 := new_ViewBuilderCore n2 s2 in
     let! _ := callSetters b1 cs1 in
     let! _ := callSetters b2 cs2 in
     ret (b1, b2)) st = (Returns (b1, b2), st')
    /\ config b1 <> config b2
    /\ builderConfig st' b1 = Some (applySetters cs1 emptyConfig)
    /\ builderConfig st' b2 = Some (applySetters cs2 emptyConfig).
Proof.
  set (l1 := fresh (dom (configs st))).
  set (st1 := withConfigs st (<[l1 := emptyConfig]> (configs st))).
  set (l2 := fresh (dom (configs st1))).
  set (st2 := withConfigs st1 (<[l2 := emptyConfig]> (configs st1))).
  set (b1 := mkCore n1 s1 l1). set (b2 := mkCore n2 s2 l2).
  assert (Hne : l1 <> l2).
  { intros E. pose proof (fresh_config_unused (configs st1)) as Hf.
    fold l2 in Hf. rewrite <- E in Hf. unfold st1, withConfigs in Hf. cbn in Hf.
    rewrite lookup_insert_eq in Hf. discriminate Hf. }
  assert (H1 : builderConfig st2 b1 = Some emptyConfig).
  { unfold builderConfig, st2, withConfigs. cbn.
    rewrite lookup_insert_ne by congruence. apply lookup_insert_eq. }
  pose proof (callSetters_run cs1 b1 st2 emptyConfig H1) as R1.
  set (st3 := withConfigs st2 (<[config b1 := applySetters cs1 emptyConfig]> (configs st2))) in *.
  assert (H2 : builderConfig st3 b2 = Some emptyConfig).
  { unfold builderConfig, st3, withConfigs. cbn.
    rewrite lookup_insert_ne by exact Hne. apply lookup_insert_eq. }
  pose proof (callSetters_run cs2 b2 st3 emptyConfig H2) as R2.
  exists b1, b2. eexists. split; [|split; [exact Hne|]].
  - rewrite (bind_returns _ _ st b1 st1) by reflexivity.
    rewrite (bind_returns _ _ st1 b2 st2) by reflexivity.
    rewrite (bind_returns _ _ _ _ _ R1).
    rewrite (bind_returns _ _ _ _ _ R2).
    reflexivity.
  - split.
    + unfold builderConfig, withConfigs. cbn.
      rewrite lookup_insert_ne by (cbn; congruence). apply lookup_insert_eq.
    + apply builderConfig_written.
Qed.

(** ** Chains of setter calls *)

Lemma applySetter_commute s1 s2 c :
  setterOption s1 <> setterOption s2 ->
  applySetter s2 (applySetter s1 c) = applySetter s1 (applySetter s2 c).
Proof. destruct s1, s2; cbn; intros H; try reflexivity; now destruct H. Qed.

(** X4: any two setter calls that write different options commute: in
    either order the chain returns the builder and leaves the same
    store. *)
Theorem setters_of_different_options_commute this s1 s2 st c :
  builderConfig st this = Some c ->
  setterOption s1 <> setterOption s2 ->
  (let! b := callSetter this s1 in callSetter b s2) st
  = (let! b := callSetter this s2 in callSetter b s1) st
  /\ fst ((let! b := callSetter this s1 in callSetter b s2) st) = Returns this.
Proof.
  intros H Hopt.
  rewrite (callSetter_twice_run this s1 s2 st c H).
  rewrite (callSetter_twice_run this s2 s1 st c H).
  rewrite (applySetter_commute s1 s2 c Hopt). split; reflexivity.
Qed.

Lemma setters_of_different_options_commute_witness :
  (builderConfig sampleStore sampleBuilder = Some emptyConfig
   /\ setterOption (CallSqlSecurity SecInvoker) <> setterOption (CallWithCheckOption None))
  /\ (let! b := callSetter sampleBuilder (CallSqlSecurity SecInvoker) in
      callSetter b (CallWithCheckOption None)) sampleStore
     = (let! b := callSetter sampleBuilder (CallWithCheckOption None) in
        callSetter b (CallSqlSecurity SecInvoker)) sampleStore.
Proof.
  split; [split; [reflexivity|discriminate]|].
  apply (setters_of_different_options_commute sampleBuilder (CallSqlSecurity SecInvoker)
           (CallWithCheckOption None) sampleStore emptyConfig).
  - reflexivity.
  - discriminate.
Defined.

Lemma applySetters_snoc cs s c :
  applySetters (cs ++ [s]) c = applySetter s (applySetters cs c).
Proof. unfold applySetters. now rewrite foldl_app. Qed.

Lemma lastOr_snoc {A} (old : option A) (args : list A) (a : A) :
  lastOr old (args ++ [a]) = Some a.
Proof. unfold lastOr. now rewrite last_snoc. Qed.

(** The config after a chain, field by field. *)
Lemma applySetters_fields cs c :
  applySetters cs c
  = mkViewBuilderConfig
      (lastOr (algorithm c) (algorithmArgs cs))
      (lastOr (definer c) (definerArgs cs))
      (lastOr (sqlSecurity c) (sqlSecurityArgs cs))
      (lastOr (withCheckOption c) (withCheckOptionArgs cs)).
Proof.
  induction cs as [|s cs IH] using rev_ind.
  - now destruct c.
  - rewrite applySetters_snoc, IH.
    unfold algorithmArgs, definerArgs, sqlSecurityArgs, withCheckOptionArgs.
    rewrite !omap_app.
    destruct s; cbn -[lastOr]; rewrite ?app_nil_r, ?lastOr_snoc; reflexivity.
Qed.

(** X5: after a chain of setter calls of any length and order, each
    field of the builder's config holds what the last call of its setter
    stored, or its old value when the chain has no call of that setter. *)
Theorem chain_keeps_last_call_of_each_setter this cs st c :
  builderConfig st this = Some c ->
  exists st',
    callSetters this cs st = (Returns this, st')
    /\ builderConfig st' this
       = Some (mkViewBuilderConfig
                 (lastOr (algorithm c) (algorithmArgs cs))
                 (lastOr (definer c) (definerArgs cs))
                 (lastOr (sqlSecurity c) (sqlSecurityArgs cs))
                 (lastOr (withCheckOption c) (withCheckOptionArgs cs))).
Proof.
  intros H. eexists. split; [exact (callSetters_run cs this st c H)|].
  rewrite builderConfig_written. now rewrite applySetters_fields.
Qed.

Lemma chain_keeps_last_call_of_each_setter_witness :
  builderConfig sampleStore sampleBuilder = Some emptyConfig
  /\ exists st',
      callSetters sampleBuilder
        [CallAlgorithm AlgMerge; CallWithCheckOption (Some Local);
         CallAlgorithm AlgTemptable; CallWithCheckOption None] sampleStore
      = (Returns sampleBuilder, st')
      /\ builderConfig st' sampleBuilder
         = Some (mkViewBuilderConfig (Some AlgTemptable) None None (Some Cascaded)).
Proof.
  split; [reflexivity|].
  apply (chain_keeps_last_call_of_each_setter sampleBuilder
           [CallAlgorithm AlgMerge; CallWithCheckOption (Some Local);
            CallAlgorithm AlgTemptable; CallWithCheckOption None]
           sampleStore emptyConfig).
  reflexivity.
Defined.

Lemma lastOr_is_Some {A} (old : option A) (args : list A) :
  is_Some old -> is_Some (lastOr old args).
Proof. unfold lastOr. destruct (last args); eauto. Qed.

(** X6: no setter clears an option.  An option that is set in the
    builder's config is still set, to some value, after any chain of
    setter calls. *)
Theorem setters_never_clear_an_option this cs st c :
  builderConfig st this = Some c ->
  exists c',
    builderConfig (snd (callSetters this cs st)) this = Some c'
    /\ (is_Some (algorithm c) -> is_Some (algorithm c'))
    /\ (is_Some (definer c) -> is_Some (definer c'))
    /\ (is_Some (sqlSecurity c) -> is_Some (sqlSecurity c'))
    /\ (is_Some (withCheckOption c) -> is_Some (withCheckOption c')).
Proof.
  intros H. exists (applySetters cs c). split.
  - rewrite (callSetters_run cs this st c H). apply builderConfig_written.
  - rewrite applySetters_fields. cbn. repeat split; apply lastOr_is_Some.
Qed.

Lemma setters_never_clear_an_option_witness :
  builderConfig
    (snd (callSetters sampleBuilder [CallDefiner "root@localhost"] sampleStore))
    sampleBuilder
  = Some (mkViewBuilderConfig None (Some "root@localhost") None None)
  /\ exists c',
      builderConfig
        (snd (callSetters sampleBuilder
                [CallAlgorithm AlgMerge; CallDefiner "admin@%"]
                (snd (callSetters sampleBuilder [CallDefiner "root@localhost"]
                        sampleStore))))
        sampleBuilder
      = Some c'
      /\ (is_Some (Some "root@localhost") -> is_Some (definer c')).
Proof.
  split; [reflexivity|].
  destruct (setters_never_clear_an_option sampleBuilder
              [CallAlgorithm AlgMerge; CallDefiner "admin@%"]
              (snd (callSetters sampleBuilder [CallDefiner "root@localhost"] sampleStore))
              (mkViewBuilderConfig None (Some "root@localhost") None None)
              eq_refl) as (c' & Hc & _ & Hd & _).
  exists c'. split; [exact Hc|exact Hd].
Defined.

(** ** From the entry points to the descriptors *)

(** X7: the options stored by the setter calls made before [as] are
    what the descriptor shows, for both builders.  Without any setter
    call the descriptor's dialect configuration is the empty object, not
    [undefined], and the backing query is always present. *)
Theorem as_descriptor_shows_builder_options n s cols cs qb q st :
  (exists b st1 st2 v st3,
      new_ViewBuilder n s st = (Returns b, st1)
      /\ callSetters b cs st1 = (Returns b, st2)
      /\ ViewBuilder.as_ b qb st2 = (Returns v, st3)
      /\ dialectConfig st3 v = Some (applySetters cs emptyConfig)
      /\ is_Some (View.query (ViewBaseConfig (target v))))
  /\ (exists m st1 st2 v,
      new_ManualViewBuilder n cols s st = (Returns m, st1)
      /\ callSetters (core m) cs st1 = (Returns (core m), st2)
      /\ ManualViewBuilder.as_ m q st2 = (Returns v, st2)
      /\ dialectConfig st2 v = Some (applySetters cs emptyConfig)
      /\ is_Some (View.query (ViewBaseConfig (target v))))
  /\ applySetters [] emptyConfig = emptyConfig.
Proof.
  set (l := fresh (dom (configs st))).
  set (st1 := withConfigs st (<[l := emptyConfig]> (configs st))).
  split; [|split; [|reflexivity]].
  - set (b := mkCore n s l).
    assert (Hb : builderConfig st1 b = Some emptyConfig)
      by apply (builderConfig_written st b).
    eexists b, st1, _, _, _. split; [reflexivity|].
    split; [exact (callSetters_run cs b st1 emptyConfig Hb)|].
    split; [apply ViewBuilder_as_run|].
    split; [|cbn; eauto].
    unfold dialectConfig. cbn. destruct qb; cbn; apply lookup_insert_eq.
  - set (m := mkManual (mkCore n s l) (getTableColumns (mysqlTable n cols))).
    assert (Hb : builderConfig st1 (core m) = Some emptyConfig)
      by apply (builderConfig_written st (core m)).
    eexists m, st1, _, _. split; [reflexivity|].
    split; [exact (callSetters_run cs (core m) st1 emptyConfig Hb)|].
    split; [apply ManualViewBuilder_as_run|].
    split; [|cbn; eauto].
    unfold dialectConfig. cbn. apply lookup_insert_eq.
Qed.

(** X8: [mysqlViewWithSchema] makes the manually-typed builder exactly
    when a column mapping is given, also an empty one, and the
    query-derived builder otherwise.  The builder has an empty config of
    its own, and the descriptors of its terminal operations carry the
    name and the schema that were passed in. *)
Theorem entry_point_builder_and_descriptors n sel s st :
  exists b st',
    mysqlViewWithSchema n sel s st = (Returns b, st')
    /\ builderConfig st' (builderCore b) = Some emptyConfig
    /\ match b with
       | IsViewBuilder vb =>
           sel = None
           /\ forall qb, exists v st'',
               ViewBuilder.as_ vb qb st' = (Returns v, st'')
               /\ View.name (ViewBaseConfig (target v)) = n
               /\ View.schema (ViewBaseConfig (target v)) = s
       | IsManualViewBuilder m =>
           (exists cols, sel = Some cols /\ columns m = getTableColumns (mysqlTable n cols))
           /\ (forall q, exists v,
                 ManualViewBuilder.as_ m q st' = (Returns v, st')
                 /\ View.name (ViewBaseConfig (target v)) = n
                 /\ View.schema (ViewBaseConfig (target v)) = s)
           /\ exists v,
               ManualViewBuilder.existing m st' = (Returns v, st')
               /\ View.name (ViewBaseConfig (target v)) = n
               /\ View.schema (ViewBaseConfig (target v)) = s
       end.
Proof.
  destruct sel as [cols|].
  - eexists _, _. split; [reflexivity|].
    split; [unfold builderConfig; cbn; apply lookup_insert_eq|].
    split; [eexists; split; reflexivity|].
    split.
    + intros q. eexists. split; [apply ManualViewBuilder_as_run|]. now split.
    + eexists. split; [apply ManualViewBuilder_existing_run|]. now split.
  - eexists _, _. split; [reflexivity|].
    split; [unfold builderConfig; cbn; apply lookup_insert_eq|].
    split; [reflexivity|].
    intros qb. eexists _, _. split; [apply ViewBuilder_as_run|]. now split.
Qed.

(** X9: a view declared with [mysqlView] has no schema: the builder it
    returns, and so every descriptor made from it, has schema
    [undefined]. *)
Theorem mysqlView_has_no_schema n sel st :
  exists b st',
    mysqlView n sel st = (Returns b, st')
    /\ name (builderCore b) = n
    /\ schema (builderCore b) = None
    /\ (forall vb qb v st'',
          b = IsViewBuilder vb ->
          ViewBuilder.as_ vb qb st' = (Returns v, st'') ->
          View.schema (ViewBaseConfig (target v)) = None)
    /\ (forall m q v st'',
          b = IsManualViewBuilder m ->
          ManualViewBuilder.as_ m q st' = (Returns v, st'')
          \/ ManualViewBuilder.existing m st' = (Returns v, st'') ->
          View.schema (ViewBaseConfig (target v)) = None).
Proof.
  destruct sel as [cols|]; eexists _, _; (split; [reflexivity|]);
    (split; [reflexivity|]); (split; [reflexivity|]); split.
  - intros vb qb v st'' [=].
  - intros m q v st'' [= <-] [H|H].
    + rewrite ManualViewBuilder_as_run in H. now injection H as <- _.
    + rewrite ManualViewBuilder_existing_run in H. now injection H as <- _.
  - intros vb qb v st'' [= <-] H.
    rewrite ViewBuilder_as_run in H. now injection H as <- _.
  - intros m q v st'' [=].
Qed.

(** X10: the descriptors that [as] makes from one builder share the
    builder's options.  With setter calls before the first [as] and more
    between the first and the second, both descriptors end up showing
    the options of all the calls: the calls made after the first
    descriptor was returned reach it too. *)
Theorem descriptors_of_one_builder_share_options n s cs1 cs2 qb1 qb2 st :
  exists b st1 st2 v1 st3 st4 v2 st5,
    new_ViewBuilder n s st = (Returns b, st1)
    /\ callSetters b cs1 st1 = (Returns b, st2)
    /\ ViewBuilder.as_ b qb1 st2 = (Returns v1, st3)
    /\ callSetters b cs2 st3 = (Returns b, st4)
    /\ ViewBuilder.as_ b qb2 st4 = (Returns v2, st5)
    /\ dialectConfig st3 v1 = Some (applySetters cs1 emptyConfig)
    /\ dialectConfig st5 v1 = Some (applySetters (cs1 ++ cs2) emptyConfig)
    /\ dialectConfig st5 v2 = dialectConfig st5 v1.
Proof.
  set (l := fresh (dom (configs st))).
  set (b := mkCore n s l).
  set (st1 := withConfigs st (<[l := emptyConfig]> (configs st))).
  assert (H1 : builderConfig st1 b = Some emptyConfig)
    by apply (builderConfig_written st b).
  pose proof (callSetters_run cs1 b st1 emptyConfig H1) as R1.
  set (st2 := withConfigs st1 _) in R1.
  pose proof (ViewBuilder_as_run b qb1 st2) as A1.
  set (v1 := mkProxy _ _) in A1. set (st3 := match qb1 with Query _ => _ | _ => _ end) in A1.
  assert (C3 : configs st3 = configs st2) by (unfold st3; now destruct qb1).
  assert (H3 : builderConfig st3 b = Some (applySetters cs1 emptyConfig)).
  { unfold builderConfig. rewrite C3. apply (builderConfig_written st1 b). }
  pose proof (callSetters_run cs2 b st3 _ H3) as R2.
  set (st4 := withConfigs st3 _) in R2.
  pose proof (ViewBuilder_as_run b qb2 st4) as A2.
  set (v2 := mkProxy _ _) in A2. set (st5 := match qb2 with Query _ => _ | _ => _ end) in A2.
  assert (C5 : configs st5 = configs st4) by (unfold st5; now destruct qb2).
  exists b, st1, st2, v1, st3, st4, v2, st5.
  split; [reflexivity|]. split; [exact R1|]. split; [exact A1|].
  split; [exact R2|]. split; [exact A2|].
  split; [exact H3|].
  assert (H5 : dialectConfig st5 v1 = Some (applySetters (cs1 ++ cs2) emptyConfig)).
  { unfold dialectConfig, v1. cbn. rewrite C5. unfold st4, withConfigs. cbn.
    rewrite lookup_insert_eq. now rewrite applySetters_app. }
  split; [exact H5|reflexivity].
Qed.

(** ** Query builders handed to factories *)

Lemma perform_log op st :
  queryBuilders (perform op st)
  = (if callsFactory op then S (queryBuilders st) else queryBuilders st)
  /\ factoryCalls (perform op st)
     = (if callsFactory op
        then factoryCalls st ++ [mkQueryBuilder (queryBuilders st)]
        else factoryCalls st).
Proof.
  destruct op as [n s|n cols s|b c|b q|b q|b]; try (split; reflexivity).
  - cbn [perform callsFactory].
    destruct (configs st !! config b) as [c0|] eqn:E.
    + rewrite (callSetter_run b c st c0 E). split; reflexivity.
    + destruct c; cbn; unfold ViewBuilderCore.algorithm, ViewBuilderCore.definer,
        ViewBuilderCore.sqlSecurity, ViewBuilderCore.withCheckOption, bind, updateConfig;
        rewrite E; split; reflexivity.
  - cbn [perform]. rewrite ViewBuilder_as_run. destruct q; split; reflexivity.
Qed.

Lemma perform_logOk op st : logOk st -> logOk (perform op st).
Proof.
  intros [Hnd Hlt]. unfold logOk.
  destruct (perform_log op st) as [-> ->].
  destruct (callsFactory op); [|now split].
  split.
  - apply NoDup_app. split; [exact Hnd|]. split; [|apply NoDup_singleton].
    intros q Hq Hin. apply list_elem_of_singleton in Hin. subst q.
    rewrite Forall_forall in Hlt. specialize (Hlt _ Hq). cbn in Hlt. lia.
  - apply Forall_app. split.
    + eapply Forall_impl; [exact Hlt|]. cbn. intros q Hq. lia.
    + apply Forall_singleton. cbn. lia.
Qed.

(** X11: through any sequence of the module's operations, a
    [QueryBuilder] is constructed only by [as] called with a factory, one
    for each such call, and no [QueryBuilder] is handed to a factory
    twice: the log of factory calls grows by one entry for each such call
    and its entries stay pairwise distinct. *)
Theorem each_factory_call_gets_its_own_QueryBuilder ops st :
  logOk st ->
  logOk (performAll ops st)
  /\ queryBuilders (performAll ops st)
     = queryBuilders st + length (List.filter callsFactory ops)
  /\ length (factoryCalls (performAll ops st))
     = length (factoryCalls st) + length (List.filter callsFactory ops).
Proof.
  revert st. induction ops as [|op ops IH]; intros st Hok.
  - cbn. repeat split; try lia; apply Hok.
  - change (performAll (op :: ops) st) with (performAll ops (perform op st)).
    destruct (IH _ (perform_logOk op st Hok)) as (Hok' & Hq & Hl).
    split; [exact Hok'|].
    rewrite Hq, Hl. destruct (perform_log op st) as [-> ->].
    cbn [List.filter]. destruct (callsFactory op); cbn [length].
    + rewrite length_app. cbn. lia.
    + lia.
Qed.

Lemma each_factory_call_gets_its_own_QueryBuilder_witness :
  logOk sampleStore
  /\ (logOk (performAll factoryOperations sampleStore)
      /\ queryBuilders (performAll factoryOperations sampleStore)
         = queryBuilders sampleStore + length (List.filter callsFactory factoryOperations)
      /\ length (factoryCalls (performAll factoryOperations sampleStore))
         = length (factoryCalls sampleStore)
           + length (List.filter callsFactory factoryOperations)).
Proof.
  assert (H : logOk sampleStore) by (split; [apply NoDup_nil_2|apply Forall_nil_2]).
  split; [exact H|].
  exact (each_factory_call_gets_its_own_QueryBuilder factoryOperations sampleStore H).
Defined.

Example factoryOperations_log :
  factoryCalls (performAll factoryOperations sampleStore)
  = [mkQueryBuilder 0; mkQueryBuilder 1].
Proof. reflexivity. Qed.
